(** * HelloWorld: the greeting contract, its deployment script and its tests

  A shallow embedding of

  - the Solidity contract [HelloWorld] (README.md, section 9):
    one private storage variable [greet], a constructor, the view
    function [greetFunction] and the guarded setter [setGreet];
  - the Hardhat deployment script scripts/deploy.ts;
  - the Mocha suites that exercise the contract.

  The contract is modelled at the level of EVM transactions: a function
  body is a computation over the contract storage that either returns
  or reverts, and a reverted transaction leaves the storage as it was.
  The TypeScript code is modelled over an interface of the services it
  obtains from Hardhat; a small local chain that executes the contract
  is one instance of that interface. *)

From Stdlib Require Import Ascii String List ZArith HexString.
From stdpp Require Import base list gmap strings.

Local Open Scope N_scope.

(** ** Solidity: calls, reverts and transactions *)

Module Solidity.

(** An account or contract address (a 160-bit number on the EVM). *)
Definition address : Type := N.

(** The part of the call context a function body may read. *)
Record Msg : Type := { sender : address }.

(** What a failed [require] carries back to the caller:
    Solidity's built-in [Error(string)]. *)
Inductive Revert : Type :=
| Error (reason : string).

(** A function body running over storage [S]: it reverts, or it returns
    a value together with the storage it leaves. *)
Definition Exec (S A : Type) : Type := S -> Revert + (A * S).

Definition ret {S A} (a : A) : Exec S A := fun st => inr (a, st).

Definition bind {S A B} (m : Exec S A) (k : A -> Exec S B) : Exec S B :=
  fun st =>
    match m st with
    | inl r => inl r
    | inr (a, st') => k a st'
    end.

Definition load {S} : Exec S S := fun st => inr (st, st).

Definition store {S} (st' : S) : Exec S unit := fun _ => inr (tt, st').

(** [require(cond, reason)] *)
Definition require {S} (cond : bool) (reason : string) : Exec S unit :=
  fun st => if cond then inr (tt, st) else inl (Error reason).

(** [bytes(s).length]: a Solidity string is its sequence of bytes. *)
Definition bytes_length (s : string) : nat := String.length s.

(** The outcome of a transaction as its sender sees it. *)
Inductive Receipt (A : Type) : Type :=
| Success (returned : A)
| Reverted (r : Revert).
Arguments Success {A} returned.
Arguments Reverted {A} r.

(** A transaction runs a body against the current storage; when the body
    reverts every change is discarded. *)
Definition transact {S A} (body : Exec S A) (st : S) : Receipt A * S :=
  match body st with
  | inl r => (Reverted r, st)
  | inr (a, st') => (Success a, st')
  end.

End Solidity.

#[global] Instance exec_ret {S} : MRet (Solidity.Exec S) :=
  fun A a => Solidity.ret a.
#[global] Instance exec_bind {S} : MBind (Solidity.Exec S) :=
  fun A B k m => Solidity.bind m k.

(** ** The contract *)

Module HelloWorld.
Import Solidity.

(** [string private greet;] *)
Record Storage : Type := { greet : string }.

(** Storage of a contract before its constructor has run. *)
Definition zero : Storage := {| greet := "" |}.

(** [constructor() { greet = "Hello, World!"; }] *)
Definition constructor (msg : Msg) : Exec Storage unit :=
  store {| greet := "Hello, World!" |}.

(** [function greetFunction() public view returns (string memory)] *)
Definition greetFunction (msg : Msg) : Exec Storage string :=
  st ← load;
  mret (greet st).

(** [function setGreet(string memory _greet) public] *)
Definition setGreet (msg : Msg) (_greet : string) : Exec Storage unit :=
  _ ← require (0 <? bytes_length _greet)%nat "Greeting cannot be empty";
  store {| greet := _greet |}.

(** Deployment: the constructor runs on zeroed storage. *)
Definition deploy (msg : Msg) : Receipt unit * Storage :=
  transact (constructor msg) zero.

(** The states a deployed instance passes through: the state left by the
    constructor, then any number of calls of the getter and of calls of
    the setter that succeed. *)
Inductive reachable : Storage -> Prop :=
| reachable_deploy msg st :
    deploy msg = (Success tt, st) -> reachable st
| reachable_get msg st v st' :
    reachable st ->
    transact (greetFunction msg) st = (Success v, st') ->
    reachable st'
| reachable_set msg s st st' :
    reachable st ->
    transact (setGreet msg s) st = (Success tt, st') ->
    reachable st'.

End HelloWorld.

(** ** TypeScript: promises, the process and the Hardhat services *)

Module Js.

(** A value a contract method hands back to the script: the decoded
    string of a view call, or the response of a sent transaction. *)
Inductive Value : Type :=
| VString (s : string)
| VTransaction.

(** The errors a script can meet. [PlainError] is an [Error] of no
    particular class, as a library throws for what it does not support;
    [AssertionError] is chai's, with the [actual] and [expected]
    properties it carries (its message is a rendering of the two);
    [CallException] is a revert surfaced by the provider; [HardhatError]
    and [ProviderError] are failures of the environment itself. *)
Inductive Error : Type :=
| PlainError (message : string)
| TypeError (message : string)
| AssertionError (actual expected : Value)
| CallException (r : Solidity.Revert)
| HardhatError (message : string)
| ProviderError (message : string).

(** How an awaited promise settles. *)
Inductive Outcome (A : Type) : Type :=
| Resolved (a : A)
| Rejected (e : Error).
Arguments Resolved {A} a.
Arguments Rejected {A} e.

(** An async function over mutable state [Σ]. The state survives a
    rejection: what was done before a [throw] stays done. *)
Definition Async (Σ A : Type) : Type := Σ -> Outcome A * Σ.

Definition ret {Σ A} (a : A) : Async Σ A := fun σ => (Resolved a, σ).

Definition bind {Σ A B} (m : Async Σ A) (k : A -> Async Σ B) : Async Σ B :=
  fun σ =>
    match m σ with
    | (Resolved a, σ') => k a σ'
    | (Rejected e, σ') => (Rejected e, σ')
    end.

Definition throw {Σ A} (e : Error) : Async Σ A := fun σ => (Rejected e, σ).

(** [promise.catch(handler)] *)
Definition catch {Σ A} (m : Async Σ A) (handler : Error -> Async Σ A)
  : Async Σ A :=
  fun σ =>
    match m σ with
    | (Resolved a, σ') => (Resolved a, σ')
    | (Rejected e, σ') => handler e σ'
    end.

Definition modify {Σ} (f : Σ -> Σ) : Async Σ unit := fun σ => (Resolved tt, f σ).

Definition gets {Σ A} (f : Σ -> A) : Async Σ A := fun σ => (Resolved (f σ), σ).

(** A promise handed on without [await], seen once it has settled: the
    call it stands for is made, and how it ended is a value. *)
Definition settled {Σ A} (m : Async Σ A) : Async Σ (Outcome A) :=
  fun σ => let '(o, σ') := m σ in (Resolved o, σ').

End Js.

#[global] Instance async_ret {Σ} : MRet (Js.Async Σ) :=
  fun A a => Js.ret a.
#[global] Instance async_bind {Σ} : MBind (Js.Async Σ) :=
  fun A B k m => Js.bind m k.

#[global] Instance value_eq_dec : EqDecision Js.Value.
Proof. solve_decision. Defined.

(** The services the scripts obtain from [hardhat] (and, for the client
    object of deploy.ts, from [viem]), over a world [W] they act on. None
    of them is code of this repository; every request may be rejected. *)
Module Hardhat.
Import Js.

Class Env (W : Type) : Type := {
  ContractFactory : Type;
  Contract : Type;
  Signer : Type;
  (** [createPublicClient({ chain, transport })] *)
  createPublicClient : W -> Outcome unit * W;
  (** [ethers.getContractFactory(name)] *)
  getContractFactory : string -> W -> Outcome ContractFactory * W;
  (** [ethers.getSigners()] *)
  getSigners : W -> Outcome (list Signer) * W;
  (** [factory.deploy()] *)
  deploy : ContractFactory -> W -> Outcome Contract * W;
  (** [contract.deployed()] *)
  deployed : Contract -> W -> Outcome unit * W;
  (** [contract.address] *)
  address : Contract -> string;
  (** [contract.signer] and the signer's [address] *)
  signer : Contract -> Signer;
  signer_address : Signer -> string;
  (** [contract.connect(signer)] *)
  connect : Contract -> Signer -> Contract;
  (** The names under which the handle offers functions: those of the
      ABI it was built from. *)
  methods : Contract -> list string;
  (** [contract[method](...args)] *)
  call : Contract -> string -> list string -> W -> Outcome Value * W
}.

(** [typeof contract[method] === "function"] *)
Definition has_method {W} `{Env W} (c : Contract) (method : string) : bool :=
  existsb (String.eqb method) (methods c).

(** A request a script has put to the environment. *)
Inductive Request : Type :=
| CreatePublicClient
| GetContractFactory (name : string)
| GetSigners
| Deploy
| Deployed (contract : string)
| Call (contract from method : string) (args : list string).

End Hardhat.

(** The Node.js process a script runs in. *)
Module Process.
Import Js.

Record t (W : Type) : Type := {
  world : W;
  issued : list Hardhat.Request;
  stdout : list string;
  stderr : list Error;
  exitCode : option Z
}.
Arguments world {W} _.
Arguments issued {W} _.
Arguments stdout {W} _.
Arguments stderr {W} _.
Arguments exitCode {W} _.

(** A process that has not done anything yet. *)
Definition boot {W} (w : W) : t W :=
  {| world := w; issued := []; stdout := []; stderr := []; exitCode := None |}.

(** The status the process ends with: [process.exitCode] when it was set,
    0 otherwise. *)
Definition exit_status {W} (p : t W) : Z := default 0%Z (exitCode p).

(** Put a request to the environment, keeping a record of it. *)
Definition request {W A} (r : Hardhat.Request) (serve : W -> Outcome A * W)
  : Async (t W) A :=
  fun p =>
    let '(o, w') := serve (world p) in
    (o, {| world := w'; issued := issued p ++ [r]; stdout := stdout p;
           stderr := stderr p; exitCode := exitCode p |}).

(** [console.log(...args)]: one line, the arguments separated by spaces. *)
Definition console_log {W} (args : list string) : Async (t W) unit :=
  modify (fun p =>
    {| world := world p; issued := issued p;
       stdout := stdout p ++ [String.concat " " args];
       stderr := stderr p; exitCode := exitCode p |}).

(** [console.error(error)] *)
Definition console_error {W} (error : Error) : Async (t W) unit :=
  modify (fun p =>
    {| world := world p; issued := issued p; stdout := stdout p;
       stderr := stderr p ++ [error]; exitCode := exitCode p |}).

(** [process.exitCode = code] *)
Definition set_exitCode {W} (code : Z) : Async (t W) unit :=
  modify (fun p =>
    {| world := world p; issued := issued p; stdout := stdout p;
       stderr := stderr p; exitCode := Some code |}).

End Process.

(** ** scripts/deploy.ts *)

Module DeployScript.
Import Js Hardhat Process.

Section Script.
Context {W : Type} `{Env W}.

(** [async function main()] *)
Definition main : Async (Process.t W) unit :=
  client ← request CreatePublicClient createPublicClient;
  HelloWorld ← request (GetContractFactory "HelloWorld")
                       (getContractFactory "HelloWorld");
  hello ← request Deploy (deploy HelloWorld);
  _ ← request (Deployed (address hello)) (deployed hello);
  console_log ["HelloWorld deployed to:"; address hello].

(** [main().catch((error) => { console.error(error); process.exitCode = 1; })] *)
Definition script : Async (Process.t W) unit :=
  catch main (fun error =>
    _ ← console_error error;
    set_exitCode 1).

(** The process after [npx hardhat run scripts/deploy.ts] against world [w]. *)
Definition run (w : W) : Process.t W := snd (script (boot w)).

(** The line the script prints for the instance [hello]. *)
Definition report (hello : Contract) : string :=
  "HelloWorld deployed to: " +:+ address hello.

(** The requests of a complete run, in the order they are put. *)
Definition requests (a : string) : list Request :=
  [CreatePublicClient; GetContractFactory "HelloWorld"; Deploy; Deployed a].

(** The environment lets the script through: the client is built, the
    factory is found, the deployment is accepted and confirmed, and
    [hello] is the handle of the new instance. *)
Inductive deploys (w : W) (hello : Contract) : Prop :=
| deploys_intro w1 HelloWorld w2 w3 w4 :
    createPublicClient w = (Resolved tt, w1) ->
    getContractFactory "HelloWorld" w1 = (Resolved HelloWorld, w2) ->
    deploy HelloWorld w2 = (Resolved hello, w3) ->
    deployed hello w3 = (Resolved tt, w4) ->
    deploys w hello.

(** The environment fails the script with [e], at the first request that
    is rejected. *)
Inductive fails (w : W) (e : Error) : Prop :=
| fails_client w1 :
    createPublicClient w = (Rejected e, w1) ->
    fails w e
| fails_lookup w1 w2 :
    createPublicClient w = (Resolved tt, w1) ->
    getContractFactory "HelloWorld" w1 = (Rejected e, w2) ->
    fails w e
| fails_deploy w1 HelloWorld w2 w3 :
    createPublicClient w = (Resolved tt, w1) ->
    getContractFactory "HelloWorld" w1 = (Resolved HelloWorld, w2) ->
    deploy HelloWorld w2 = (Rejected e, w3) ->
    fails w e
| fails_confirm w1 HelloWorld w2 hello w3 w4 :
    createPublicClient w = (Resolved tt, w1) ->
    getContractFactory "HelloWorld" w1 = (Resolved HelloWorld, w2) ->
    deploy HelloWorld w2 = (Resolved hello, w3) ->
    deployed hello w3 = (Rejected e, w4) ->
    fails w e.

End Script.
End DeployScript.

(** ** Mocha and Chai *)

Module Mocha.
Import Js.

Inductive Verdict : Type :=
| Passed
| Failed (e : Error).

(** How a scenario that has ended is reported. *)
Definition verdict {A} (o : Outcome A) : Verdict :=
  match o with
  | Resolved _ => Passed
  | Rejected e => Failed e
  end.

(** [describe(title, function () { before(hook); it(name, body); ... })] *)
Record Suite (Σ : Type) : Type := {
  title : string;
  before : Async Σ unit;
  tests : list (string * Async Σ unit)
}.
Arguments title {Σ} _.
Arguments before {Σ} _.
Arguments tests {Σ} _.

(** The scenarios run one after the other on the state the previous one
    left; a scenario that throws is reported and the next one still runs. *)
Fixpoint run_tests {Σ} (ts : list (string * Async Σ unit)) (σ : Σ)
  : list (string * Verdict) * Σ :=
  match ts with
  | [] => ([], σ)
  | (name, body) :: ts' =>
      let '(o, σ') := body σ in
      let '(vs, σ'') := run_tests ts' σ' in
      ((name, verdict o) :: vs, σ'')
  end.

(** A run of the suite: when the [before] hook throws no scenario runs. *)
Definition run {Σ} (s : Suite Σ) (σ : Σ)
  : (Error + list (string * Verdict)) * Σ :=
  match before s σ with
  | (Rejected e, σ') => (inl e, σ')
  | (Resolved _, σ') =>
      let '(vs, σ'') := run_tests (tests s) σ' in (inr vs, σ'')
  end.

End Mocha.

Module Chai.
Import Js.

(** [expect(actual).to.equal(expected)] *)
Definition expect_equal {Σ} (actual expected : Value) : Async Σ unit :=
  if decide (actual = expected) then mret tt
  else throw (AssertionError actual expected).

(** Chai itself has no [revertedWith]: what
    [expect(promise).to.be.revertedWith(reason)] does is up to the plugins
    loaded into it, none of which is code of this repository. It is taken
    as it comes: from how the promise settled and the reason, the
    expression resolves or throws. *)
Class Matchers : Type := {
  revertedWith : Outcome Value -> string -> Outcome unit
}.

(** [expect(promise).to.be.revertedWith(reason)] *)
Definition expect_revertedWith {Σ} `{Matchers}
    (promise : Outcome Value) (reason : string) : Async Σ unit :=
  fun σ => (revertedWith promise reason, σ).

End Chai.

(** ** The test suites *)

(** What the suites share: the variables declared at the top of
    [describe], and the way a test talks to the environment. *)
Module Fixture.
Import Js Hardhat Process.

Section Fixture.
Context {W : Type} `{Env W}.

(** [let helloWorld: any; let owner: any; let addr1: any;], all
    [undefined] until the hook assigns them, next to the process. *)
Record Vars : Type := {
  proc : Process.t W;
  helloWorld : option Contract;
  owner : option Signer;
  addr1 : option Signer
}.

Definition start (w : W) : Vars :=
  {| proc := boot w; helloWorld := None; owner := None; addr1 := None |}.

(** Run a step of the process inside a test. *)
Definition env {A} (m : Async (Process.t W) A) : Async Vars A :=
  fun v =>
    let '(o, p) := m (proc v) in
    (o, {| proc := p; helloWorld := helloWorld v;
           owner := owner v; addr1 := addr1 v |}).

Definition set_helloWorld (c : Contract) : Async Vars unit :=
  modify (fun v =>
    {| proc := proc v; helloWorld := Some c;
       owner := owner v; addr1 := addr1 v |}).

(** [[owner, addr1] = signers]: a missing element leaves [undefined]. *)
Definition set_signers (signers : list Signer) : Async Vars unit :=
  modify (fun v =>
    {| proc := proc v; helloWorld := helloWorld v;
       owner := signers !! 0%nat; addr1 := signers !! 1%nat |}).

(** [receiver.method], about to be called, on a variable of type [any];
    [receiver] is the expression as written. Nothing is requested yet:
    an undefined receiver or a name the handle does not offer throws here,
    in the script. *)
Definition method_of (receiver : string) (c : option Contract)
    (method : string) : Async Vars Contract :=
  match c with
  | None =>
      throw (TypeError ("Cannot read properties of undefined (reading '"
                        +:+ method +:+ "')"))
  | Some c =>
      if has_method c method then mret c
      else throw (TypeError (receiver +:+ "." +:+ method
                             +:+ " is not a function"))
  end.

(** The call itself: a request to the environment. *)
Definition send_call (c : Contract) (method : string) (args : list string)
  : Async Vars Value :=
  env (request (Call (address c) (signer_address (signer c)) method args)
               (call c method args)).

(** [await receiver.method(...args)] *)
Definition invoke (receiver : string) (c : option Contract) (method : string)
    (args : list string) : Async Vars Value :=
  c ← method_of receiver c method;
  send_call c method args.

(** [contract.connect(signer)]; a handle connected to [undefined] cannot
    send anything, which is reported here. *)
Definition connect_to (c : option Contract) (s : option Signer)
  : Async Vars (option Contract) :=
  match c, s with
  | None, _ =>
      throw (TypeError "Cannot read properties of undefined (reading 'connect')")
  | Some _, None =>
      throw (ProviderError "sending a transaction requires a signer")
  | Some c, Some s => mret (Some (connect c s))
  end.

End Fixture.
End Fixture.

(** test/HelloWorld.test.ts as README.md, section 14, gives it. *)
Module HelloWorldTest.
Import Js Hardhat Process Mocha Chai Fixture.

Section Suite.
Context {W : Type} `{Env W} `{Matchers}.

Definition before_hook : Async Vars unit :=
  signers ← env (request GetSigners getSigners);
  _ ← set_signers signers;
  HelloWorld ← env (request (GetContractFactory "HelloWorld")
                            (getContractFactory "HelloWorld"));
  c ← env (request Deploy (deploy HelloWorld));
  _ ← set_helloWorld c;
  env (request (Deployed (address c)) (deployed c)).

(** [it("Should return the correct greeting", ...)] *)
Definition returns_greeting : Async Vars unit :=
  helloWorld ← gets helloWorld;
  greeting ← invoke "helloWorld" helloWorld "greetFunction" [];
  expect_equal greeting (VString "Hello, World!").

(** [it("Should update the greeting", ...)] *)
Definition updates_greeting : Async Vars unit :=
  helloWorld ← gets helloWorld;
  _ ← invoke "helloWorld" helloWorld "setGreet" ["Hello, Ethereum!"];
  newGreeting ← invoke "helloWorld" helloWorld "greetFunction" [];
  expect_equal newGreeting (VString "Hello, Ethereum!").

(** [it("Should revert when setting an empty greeting", ...)]: the call
    is made, not awaited, and its promise is what [expect] receives. *)
Definition reverts_on_empty : Async Vars unit :=
  helloWorld ← gets helloWorld;
  c ← method_of "helloWorld" helloWorld "setGreet";
  promise ← settled (send_call c "setGreet" [""]);
  expect_revertedWith promise "Greeting cannot be empty".

(** [it("Should allow anyone to update the greeting", ...)] *)
Definition anyone_updates : Async Vars unit :=
  helloWorld ← gets helloWorld;
  addr1 ← gets addr1;
  connected ← connect_to helloWorld addr1;
  _ ← invoke "helloWorld.connect(...)" connected "setGreet"
             ["Hello from addr1!"];
  newGreeting ← invoke "helloWorld" helloWorld "greetFunction" [];
  expect_equal newGreeting (VString "Hello from addr1!").

(** [describe("HelloWorld contract", ...)] *)
Definition suite : Suite Vars :=
  {| title := "HelloWorld contract";
     before := before_hook;
     tests :=
       [ ("Should return the correct greeting", returns_greeting);
         ("Should update the greeting", updates_greeting);
         ("Should revert when setting an empty greeting", reverts_on_empty);
         ("Should allow anyone to update the greeting", anyone_updates) ] |}.

End Suite.
End HelloWorldTest.

(** The shorter suite that follows deploy.ts in the sources: one scenario,
    which reads the greeting through a method named [greet]. *)
Module GreetTest.
Import Js Hardhat Process Mocha Chai Fixture.

Section Suite.
Context {W : Type} `{Env W}.

Definition before_hook : Async Vars unit :=
  HelloWorld ← env (request (GetContractFactory "HelloWorld")
                            (getContractFactory "HelloWorld"));
  c ← env (request Deploy (deploy HelloWorld));
  _ ← set_helloWorld c;
  env (request (Deployed (address c)) (deployed c)).

(** [it("Should return the correct greeting", ...)] *)
Definition returns_greeting : Async Vars unit :=
  helloWorld ← gets helloWorld;
  greeting ← invoke "helloWorld" helloWorld "greet" [];
  expect_equal greeting (VString "Hello, World!").

Definition suite : Suite Vars :=
  {| title := "HelloWorld contract";
     before := before_hook;
     tests := [ ("Should return the correct greeting", returns_greeting) ] |}.

End Suite.
End GreetTest.

(** ** A local chain

    An instance of the environment that runs the contract above: a node
    with some unlocked accounts, the contracts deployed so far, and the
    compiled artifact of [HelloWorld] when the project has been built. *)

Module LocalChain.
Import Js.

Record Chain : Type := {
  contracts : gmap N HelloWorld.Storage;
  accounts : list N;
  compiled : bool
}.

Record Factory : Type := { deployer : option N }.

Record Handle : Type := { target : N; from : N }.

Definition createPublicClient (w : Chain) : Outcome unit * Chain :=
  (Resolved tt, w).

(** The message of Hardhat's error HH700, the name between double
    quotes. *)
Definition HH700 (name : string) : string :=
  "HH700: Artifact for contract "
  +:+ String "034"%char name +:+ String "034"%char " not found. ".

Definition getContractFactory (name : string) (w : Chain)
  : Outcome Factory * Chain :=
  if compiled w && String.eqb name "HelloWorld"
  then (Resolved {| deployer := head (accounts w) |}, w)
  else (Rejected (HardhatError (HH700 name)), w).

Definition getSigners (w : Chain) : Outcome (list N) * Chain :=
  (Resolved (accounts w), w).

(** The new instance gets an address no contract has yet. *)
Definition deploy (f : Factory) (w : Chain) : Outcome Handle * Chain :=
  match deployer f with
  | None => (Rejected (ProviderError "no signer to deploy with"), w)
  | Some a =>
      let addr := fresh (dom (contracts w)) in
      match HelloWorld.deploy {| Solidity.sender := a |} with
      | (Solidity.Success _, st) =>
          (Resolved {| target := addr; from := a |},
           {| contracts := <[addr := st]> (contracts w);
              accounts := accounts w; compiled := compiled w |})
      | (Solidity.Reverted r, _) => (Rejected (CallException r), w)
      end
  end.

Definition deployed (c : Handle) (w : Chain) : Outcome unit * Chain :=
  match contracts w !! target c with
  | Some _ => (Resolved tt, w)
  | None => (Rejected (ProviderError "contract not deployed"), w)
  end.

(** A transaction sent to a contract: the storage the transaction leaves
    becomes the storage of the contract. *)
Definition send {A} (c : Handle) (body : Solidity.Exec HelloWorld.Storage A)
    (st : HelloWorld.Storage) (w : Chain) : Outcome Value * Chain :=
  let '(receipt, st') := Solidity.transact body st in
  let w' := {| contracts := <[target c := st']> (contracts w);
               accounts := accounts w; compiled := compiled w |} in
  match receipt with
  | Solidity.Success _ => (Resolved VTransaction, w')
  | Solidity.Reverted r => (Rejected (CallException r), w')
  end.

(** A view function is evaluated by the node without a transaction:
    nothing is written back. *)
Definition eth_call (body : Solidity.Exec HelloWorld.Storage string)
    (st : HelloWorld.Storage) (w : Chain) : Outcome Value * Chain :=
  match Solidity.transact body st with
  | (Solidity.Success s, _) => (Resolved (VString s), w)
  | (Solidity.Reverted r, _) => (Rejected (CallException r), w)
  end.

(** The ABI of the contract: its two public functions. The variable
    [greet] is private and gets no getter. *)
Definition abi : list string := ["greetFunction"; "setGreet"].

(** A call through a handle, which offers the functions of the ABI and
    nothing else. A call that does not fit the ABI, by its name or by the
    number of its arguments, is refused and nothing reaches the
    contract. *)
Definition call (c : Handle) (method : string) (args : list string) (w : Chain)
  : Outcome Value * Chain :=
  let msg := {| Solidity.sender := from c |} in
  match contracts w !! target c with
  | None => (Rejected (ProviderError "call to an address without code"), w)
  | Some st =>
      if String.eqb method "greetFunction" then
        match args with
        | [] => eth_call (HelloWorld.greetFunction msg) st w
        | _ => (Rejected (ProviderError "too many arguments"), w)
        end
      else if String.eqb method "setGreet" then
        match args with
        | [_greet] => send c (HelloWorld.setGreet msg _greet) st w
        | _ => (Rejected (ProviderError "wrong number of arguments"), w)
        end
      else (Rejected (ProviderError "no such function in the ABI"), w)
  end.

#[global] Instance hardhat_env : Hardhat.Env Chain := {|
  Hardhat.ContractFactory := Factory;
  Hardhat.Contract := Handle;
  Hardhat.Signer := N;
  Hardhat.createPublicClient := createPublicClient;
  Hardhat.getContractFactory := getContractFactory;
  Hardhat.getSigners := getSigners;
  Hardhat.deploy := deploy;
  Hardhat.deployed := deployed;
  Hardhat.address := fun c => HexString.of_N (target c);
  Hardhat.signer := from;
  Hardhat.signer_address := HexString.of_N;
  Hardhat.connect := fun c s => {| target := target c; from := s |};
  Hardhat.methods := fun _ => abi;
  Hardhat.call := call
|}.

(** A freshly started node: twenty accounts on a real one, three here. *)
Definition node (compiled : bool) : Chain :=
  {| contracts := ∅; accounts := [101; 102; 103]; compiled := compiled |}.

End LocalChain.

(** The state of a test run on the local chain once the hook has run:
    the instance sits at [addr] with storage [st] next to the contracts
    [cs] that were there before, [helloWorld] is the handle the first
    account deployed it through, [owner] and [addr1] are the first two
    accounts, and [log] is what has been requested so far. *)
Module LocalRun.
Import Js Hardhat Process Fixture LocalChain.

Definition running (cs : gmap N HelloWorld.Storage) (a0 a1 : N) (rest : list N)
    (addr : N) (st : HelloWorld.Storage) (log : list Request) : Vars :=
  {| proc :=
       {| world := {| contracts := <[addr := st]> cs;
                      accounts := a0 :: a1 :: rest;
                      compiled := true |};
          issued := log; stdout := []; stderr := []; exitCode := None |};
     helloWorld := Some {| target := addr; from := a0 |};
     owner := Some a0;
     addr1 := Some a1 |}.

(** The request behind [contract.method(...args)] sent by [from]. *)
Definition called (addr from : N) (method : string) (args : list string)
  : Request :=
  Call (HexString.of_N addr) (HexString.of_N from) method args.

End LocalRun.

(** ** Sequences of transactions *)

(** What a deployed instance goes through over time: transactions sent
    by whoever, each a call of one of the two functions, reverted ones
    included. *)
Module Calls.
Import Solidity HelloWorld.

Inductive Call : Type :=
| GreetFunction
| SetGreet (_greet : string).

(** The storage one transaction leaves. *)
Definition perform (tx : Msg * Call) (st : Storage) : Storage :=
  match tx with
  | (msg, GreetFunction) => snd (transact (greetFunction msg) st)
  | (msg, SetGreet s) => snd (transact (setGreet msg s) st)
  end.

(** The storage a list of transactions leaves, first to last. *)
Definition replay (txs : list (Msg * Call)) (st : Storage) : Storage :=
  foldl (fun st tx => perform tx st) st txs.

(** The greeting one expects to find after [txs] on an instance that held
    [g]: the argument of the last [SetGreet] that was not empty, [g] when
    there was none. *)
Fixpoint last_greeting (txs : list (Msg * Call)) (g : string) : string :=
  match txs with
  | [] => g
  | (_, SetGreet (String c s)) :: txs' => last_greeting txs' (String c s)
  | _ :: txs' => last_greeting txs' g
  end.

End Calls.

(** ** The deployment script as README.md, section 11, gives it *)

(** The same script without the [viem] client. *)
Module ReadmeDeployScript.
Import Js Hardhat Process.

Section Script.
Context {W : Type} `{Env W}.

(** [async function main()] *)
Definition main : Async (Process.t W) unit :=
  HelloWorld ← request (GetContractFactory "HelloWorld")
                       (getContractFactory "HelloWorld");
  hello ← request Deploy (deploy HelloWorld);
  _ ← request (Deployed (address hello)) (deployed hello);
  console_log ["HelloWorld deployed to:"; address hello].

(** [main().catch((error) => { console.error(error); process.exitCode = 1; })] *)
Definition script : Async (Process.t W) unit :=
  catch main (fun error =>
    _ ← console_error error;
    set_exitCode 1).

Definition run (w : W) : Process.t W := snd (script (boot w)).

End Script.
End ReadmeDeployScript.

(** ** Reading the record of requests *)

Module Requests.
Import Hardhat.

Definition is_call (r : Request) : bool :=
  match r with
  | Call _ _ _ _ => true
  | _ => false
  end.

Definition is_deploy (r : Request) : bool :=
  match r with
  | Deploy => true
  | _ => false
  end.

(** The requests of the hook of the README suite when nothing fails. *)
Definition hook_requests (a : string) : list Request :=
  [GetSigners; GetContractFactory "HelloWorld"; Deploy; Deployed a].

End Requests.

(** ** What a test adds to the record *)

Module SuiteLog.
Import Js Hardhat Process Fixture Requests.

Section Log.
Context {W : Type} `{Env W}.

(** [m] puts no request but calls of contract methods: whatever the state
    it starts from, the record it leaves is the one it found followed by
    such calls. *)
Definition only_calls {A} (m : Async Vars A) : Prop :=
  forall v, exists calls,
    issued (proc (snd (m v))) = issued (proc v) ++ calls /\
    forallb is_call calls = true.

End Log.
End SuiteLog.

(** * Properties *)

(** ** The contract *)

Module HelloWorldSpec.
Import Solidity HelloWorld.

Lemma bytes_length_pos (s : string) :
  (0 <? bytes_length s)%nat = true <-> s <> "".
Proof.
  unfold bytes_length. destruct s as [|c s]; simpl.
  - split; [discriminate | intros E; contradiction E; reflexivity].
  - split; [discriminate | reflexivity].
Qed.

(** The body of the setter, case by case. *)
Lemma setGreet_body msg s st :
  setGreet msg s st =
    if (0 <? bytes_length s)%nat
    then inr (tt, {| greet := s |})
    else inl (Error "Greeting cannot be empty").
Proof.
  unfold setGreet, mbind, exec_bind, bind, require, store.
  destruct (0 <? bytes_length s)%nat; reflexivity.
Qed.

Lemma setGreet_nonempty msg s st :
  s <> "" -> transact (setGreet msg s) st = (Success tt, {| greet := s |}).
Proof.
  intros Hs. apply bytes_length_pos in Hs.
  unfold transact. rewrite setGreet_body, Hs. reflexivity.
Qed.

Lemma setGreet_empty msg st :
  transact (setGreet msg "") st
  = (Reverted (Error "Greeting cannot be empty"), st).
Proof. reflexivity. Qed.

Lemma greetFunction_returns msg st :
  transact (greetFunction msg) st = (Success (greet st), st).
Proof. reflexivity. Qed.

Lemma deploy_state msg :
  deploy msg = (Success tt, {| greet := "Hello, World!" |}).
Proof. reflexivity. Qed.

(** A successful call of the setter was given a non-empty string and
    stored it. *)
Lemma setGreet_success_inv msg s st st' :
  transact (setGreet msg s) st = (Success tt, st') ->
  s <> "" /\ st' = {| greet := s |}.
Proof.
  unfold transact. rewrite setGreet_body.
  destruct (0 <? bytes_length s)%nat eqn:E; intros Heq; [|discriminate].
  apply bytes_length_pos in E. split; [exact E | congruence].
Qed.

(** C1 (write-then-read). For a non-empty string [s] the setter, called
    by anyone on any state, succeeds, and after a successful call of the
    setter with [s] the getter, called by anyone, returns exactly [s]. *)
Theorem setGreet_then_greetFunction msg msg' (s : string) st :
  s <> "" ->
  (exists st', transact (setGreet msg s) st = (Success tt, st')) /\
  (forall st', transact (setGreet msg s) st = (Success tt, st') ->
               fst (transact (greetFunction msg') st') = Success s).
Proof.
  intros Hs. split.
  - eexists. apply setGreet_nonempty, Hs.
  - intros st' Hset. apply setGreet_success_inv in Hset as [_ ->].
    reflexivity.
Qed.

Lemma setGreet_then_greetFunction_witness :
  "Hello, Ethereum!" <> "" /\
  fst (transact (greetFunction {| sender := 2 |})
         (snd (transact (setGreet {| sender := 1 |} "Hello, Ethereum!")
                 {| greet := "Hello, World!" |})))
  = Success "Hello, Ethereum!".
Proof.
  assert (Hs : "Hello, Ethereum!" <> "") by discriminate.
  split; [exact Hs|].
  apply (proj2 (setGreet_then_greetFunction
                  {| sender := 1 |} {| sender := 2 |} "Hello, Ethereum!"
                  {| greet := "Hello, World!" |} Hs)).
  reflexivity.
Defined.

(** C2 (validation). The setter called with the empty string reverts with
    the reason "Greeting cannot be empty" and the stored greeting is what
    it was; the setter reverts exactly when its argument is empty, and
    whenever it reverts it does so with that reason and leaves the state
    untouched. *)
Theorem setGreet_empty_reverts msg st :
  transact (setGreet msg "") st
    = (Reverted (Error "Greeting cannot be empty"), st) /\
  (forall s, (exists r, fst (transact (setGreet msg s) st) = Reverted r)
             <-> s = "") /\
  (forall s r st', transact (setGreet msg s) st = (Reverted r, st') ->
                   r = Error "Greeting cannot be empty" /\ st' = st).
Proof.
  split; [reflexivity|]. split.
  - intros s. split.
    + intros [r Hr]. destruct (decide (s = "")) as [|Hs]; [assumption|].
      rewrite (setGreet_nonempty msg s st Hs) in Hr. discriminate.
    + intros ->. eexists. reflexivity.
  - intros s r st'. unfold transact. rewrite setGreet_body.
    destruct (0 <? bytes_length s)%nat; intros Heq; [discriminate|].
    split; congruence.
Qed.

(** C3 (initial value). Deployment succeeds, and on the instance it
    leaves the getter returns exactly "Hello, World!". *)
Theorem fresh_instance_greeting msg msg' :
  exists st,
    deploy msg = (Success tt, st) /\
    transact (greetFunction msg') st = (Success "Hello, World!", st).
Proof.
  exists {| greet := "Hello, World!" |}. split; reflexivity.
Qed.

(** C4 (invariant). In every state reachable from construction by calls of
    the getter and successful calls of the setter, the stored greeting is
    not the empty string. *)
Theorem greet_never_empty st :
  reachable st -> greet st <> "".
Proof.
  induction 1 as [msg st Hd | msg st v st' _ IH Hget | msg s st st' _ _ Hset].
  - rewrite deploy_state in Hd. inversion Hd; subst. discriminate.
  - rewrite greetFunction_returns in Hget. inversion Hget; subst. exact IH.
  - apply setGreet_success_inv in Hset as [Hs ->]. exact Hs.
Qed.

Lemma greet_never_empty_witness :
  greet {| greet := "Hello from addr1!" |} <> "".
Proof.
  apply greet_never_empty.
  apply (reachable_set {| sender := 102 |} "Hello from addr1!"
           {| greet := "Hello, World!" |} {| greet := "Hello from addr1!" |}).
  - apply (reachable_get {| sender := 101 |} {| greet := "Hello, World!" |}
             "Hello, World!").
    + apply (reachable_deploy {| sender := 101 |}). reflexivity.
    + reflexivity.
  - reflexivity.
Defined.

(** C5 (no access control). For a non-empty string the setter succeeds
    whoever calls it, two different callers leave the same stored value,
    and any caller then reads that value through the getter. *)
Theorem setGreet_any_caller (caller1 caller2 : address) (s : string) st :
  s <> "" ->
  exists st',
    transact (setGreet {| sender := caller1 |} s) st = (Success tt, st') /\
    transact (setGreet {| sender := caller2 |} s) st = (Success tt, st') /\
    forall reader : address,
      transact (greetFunction {| sender := reader |}) st' = (Success s, st').
Proof.
  intros Hs. exists {| greet := s |}.
  rewrite !setGreet_nonempty by exact Hs.
  repeat split.
Qed.

Lemma setGreet_any_caller_witness :
  exists st',
    transact (setGreet {| sender := 101 |} "Hello from addr1!")
             {| greet := "Hello, Ethereum!" |} = (Success tt, st') /\
    transact (setGreet {| sender := 102 |} "Hello from addr1!")
             {| greet := "Hello, Ethereum!" |} = (Success tt, st') /\
    forall reader : address,
      transact (greetFunction {| sender := reader |}) st'
      = (Success "Hello from addr1!", st').
Proof.
  apply (setGreet_any_caller 101 102 "Hello from addr1!"
           {| greet := "Hello, Ethereum!" |}).
  discriminate.
Defined.

(** C7 (the getter is pure). The getter takes nothing but the call
    context, never reverts, returns the stored greeting and leaves the
    storage, which is all the state the contract has, as it found it. *)
Theorem greetFunction_no_effect msg st :
  greetFunction msg st = inr (greet st, st) /\
  transact (greetFunction msg) st = (Success (greet st), st).
Proof. split; reflexivity. Qed.

(** C10 (last writer wins). For non-empty [s1] and [s2], setting [s1] and
    then [s2] leaves the state that setting [s2] alone leaves; setting the
    same non-empty string twice leaves what setting it once leaves. *)
Theorem setGreet_last_writer_wins msg1 msg2 (s1 s2 : string) st :
  s1 <> "" -> s2 <> "" ->
  snd (transact (setGreet msg2 s2) (snd (transact (setGreet msg1 s1) st)))
    = snd (transact (setGreet msg2 s2) st) /\
  snd (transact (setGreet msg1 s1) (snd (transact (setGreet msg1 s1) st)))
    = snd (transact (setGreet msg1 s1) st).
Proof.
  intros H1 H2.
  rewrite (setGreet_nonempty msg1 s1 st H1). cbn [snd]. split.
  - rewrite !(setGreet_nonempty msg2 s2) by exact H2. reflexivity.
  - rewrite (setGreet_nonempty msg1 s1 _ H1). reflexivity.
Qed.

Lemma setGreet_last_writer_wins_witness :
  snd (transact (setGreet {| sender := 102 |} "Hello from addr1!")
         (snd (transact (setGreet {| sender := 101 |} "Hello, Ethereum!")
                 {| greet := "Hello, World!" |})))
  = {| greet := "Hello from addr1!" |}.
Proof.
  refine (eq_trans
            (proj1 (setGreet_last_writer_wins
                      {| sender := 101 |} {| sender := 102 |}
                      "Hello, Ethereum!" "Hello from addr1!"
                      {| greet := "Hello, World!" |} _ _)) _).
  - discriminate.
  - discriminate.
  - reflexivity.
Defined.

End HelloWorldSpec.

(** ** The deployment script *)

Module DeployScriptSpec.
Import Js Hardhat Process DeployScript.

Section Script.
Context {W : Type} `{Env W}.

Ltac run_script :=
  unfold run, script, catch, main, mbind, async_bind, bind, request,
    console_log, console_error, set_exitCode, modify, boot; cbn.

Ltac step_env :=
  match goal with
  | E : ?x = _ |- context [?x] => rewrite E; cbn
  end.

(** When the environment lets the script through, the run is this one. *)
Lemma run_deploys w hello :
  deploys w hello ->
  main (boot w) = (Resolved tt, run w) /\
  stdout (run w) = [report hello] /\
  stderr (run w) = [] /\
  exitCode (run w) = None /\
  issued (run w) = requests (address hello).
Proof.
  intros [w1 f w2 w3 w4 E1 E2 E3 E4].
  run_script. repeat step_env. repeat split.
Qed.

(** When the environment fails the script, the run is this one. *)
Lemma run_fails w e :
  fails w e ->
  (exists q, main (boot w) = (Rejected e, q)) /\
  stdout (run w) = [] /\
  stderr (run w) = [e] /\
  exitCode (run w) = Some 1%Z /\
  exists a, issued (run w) `prefix_of` requests a.
Proof.
  intros [w1 E1 | w1 w2 E1 E2 | w1 f w2 w3 E1 E2 E3
         | w1 f w2 hello w3 w4 E1 E2 E3 E4];
    run_script; repeat step_env;
    (split; [eexists; reflexivity|]); repeat split.
  - exists "". exists [GetContractFactory "HelloWorld"; Deploy; Deployed ""].
    reflexivity.
  - exists "". exists [Deploy; Deployed ""]. reflexivity.
  - exists "". exists [Deployed ""]. reflexivity.
  - exists (address hello). exists []. reflexivity.
Qed.

(** Every world does one or the other. *)
Lemma deploys_or_fails w :
  (exists hello, deploys w hello) \/ (exists e, fails w e).
Proof.
  destruct (createPublicClient w) as [[[]|e1] w1] eqn:E1;
    [|right; exists e1; eapply fails_client; eassumption].
  destruct (getContractFactory "HelloWorld" w1) as [[f|e2] w2] eqn:E2;
    [|right; exists e2; eapply fails_lookup; eassumption].
  destruct (deploy f w2) as [[hello|e3] w3] eqn:E3;
    [|right; exists e3; eapply fails_deploy; eassumption].
  destruct (deployed hello w3) as [[[]|e4] w4] eqn:E4;
    [|right; exists e4; eapply fails_confirm; eassumption].
  left. exists hello. eapply deploys_intro; eassumption.
Qed.

(** C8 (standard output). When the run is successful, that is when the
    process ends with status 0, the environment has deployed an instance
    [hello] and standard output holds exactly one line,
    "HelloWorld deployed to: " followed by the address of [hello]. *)
Theorem deploy_script_stdout (w : W) :
  exit_status (run w) = 0%Z ->
  exists hello,
    deploys w hello /\
    stdout (run w) = ["HelloWorld deployed to: " +:+ address hello].
Proof.
  intros Hexit.
  destruct (deploys_or_fails w) as [[hello Hd] | [e Hf]].
  - exists hello. split; [exact Hd|].
    apply run_deploys in Hd as (_ & Hout & _). exact Hout.
  - apply run_fails in Hf as (_ & _ & _ & Hcode & _).
    unfold exit_status in Hexit. rewrite Hcode in Hexit. discriminate.
Qed.

(** C9 (failure and exit status). A failure of the client, of the factory
    lookup, of the deployment or of its confirmation is written to
    standard error and the process ends with status 1, having printed
    nothing; the status is 0 exactly when [main] resolves and non-zero
    exactly when the environment fails the script; and no request is put
    twice: what was requested is an initial part of the four requests of
    a complete run. *)
Theorem deploy_script_exit_status (w : W) :
  (forall e, fails w e ->
     stderr (run w) = [e] /\ exit_status (run w) = 1%Z /\ stdout (run w) = []) /\
  (exit_status (run w) = 0%Z <-> exists q, main (boot w) = (Resolved tt, q)) /\
  (exit_status (run w) <> 0%Z <-> exists e, fails w e) /\
  (exists a, issued (run w) `prefix_of` requests a).
Proof.
  split; [|split; [|split]].
  - intros e Hf. apply run_fails in Hf as (_ & Hout & Herr & Hcode & _).
    unfold exit_status. rewrite Hcode. auto.
  - destruct (deploys_or_fails w) as [[hello Hd] | [e Hf]].
    + apply run_deploys in Hd as (Hmain & _ & _ & Hcode & _).
      unfold exit_status. rewrite Hcode. split; [eauto | reflexivity].
    + apply run_fails in Hf as ([q Hmain] & _ & _ & Hcode & _).
      unfold exit_status. rewrite Hcode, Hmain. split; [discriminate|].
      intros [q' Hq']. discriminate.
  - destruct (deploys_or_fails w) as [[hello Hd] | [e Hf]].
    + apply run_deploys in Hd as (Hmain & _ & _ & Hcode & _).
      unfold exit_status. rewrite Hcode. split; [intros Hne; contradiction|].
      intros [e Hf]. apply run_fails in Hf as ([q Hq] & _).
      rewrite Hmain in Hq. discriminate.
    + split; [eauto|]. intros _.
      apply run_fails in Hf as (_ & _ & _ & Hcode & _).
      unfold exit_status. rewrite Hcode. discriminate.
  - destruct (deploys_or_fails w) as [[hello Hd] | [e Hf]].
    + apply run_deploys in Hd as (_ & _ & _ & _ & Hreq).
      exists (address hello). rewrite Hreq. reflexivity.
    + apply run_fails in Hf as (_ & _ & _ & _ & Hreq). exact Hreq.
Qed.

End Script.

Lemma deploy_script_stdout_witness :
  exit_status (run (LocalChain.node true)) = 0%Z /\
  exists hello,
    deploys (LocalChain.node true) hello /\
    stdout (run (LocalChain.node true))
    = ["HelloWorld deployed to: " +:+ address hello].
Proof.
  assert (Hexit : exit_status (run (LocalChain.node true)) = 0%Z)
    by (vm_compute; reflexivity).
  split; [exact Hexit|].
  apply (deploy_script_stdout (LocalChain.node true) Hexit).
Defined.

Lemma deploy_script_exit_status_witness :
  fails (LocalChain.node false)
    (HardhatError (LocalChain.HH700 "HelloWorld")) /\
  stderr (run (LocalChain.node false))
    = [HardhatError (LocalChain.HH700 "HelloWorld")] /\
  exit_status (run (LocalChain.node false)) = 1%Z /\
  stdout (run (LocalChain.node false)) = [].
Proof.
  assert (Hf : fails (LocalChain.node false)
                 (HardhatError (LocalChain.HH700 "HelloWorld"))).
  { eapply fails_lookup; reflexivity. }
  split; [exact Hf|].
  apply (proj1 (deploy_script_exit_status (LocalChain.node false)) _ Hf).
Defined.

(** On a node where the project has been built the script prints the
    address of the first contract and leaves the exit code unset. *)
Example deploy_on_local_node :
  let p := run (LocalChain.node true) in
  stdout p = ["HelloWorld deployed to: 0x0"] /\ stderr p = [] /\
  exitCode p = None /\ issued p = requests "0x0".
Proof. vm_compute. repeat split. Qed.

End DeployScriptSpec.

(** ** The test suites *)

Module HelloWorldTestSpec.
Import Js Hardhat Process Mocha Chai Fixture HelloWorldTest.
Import LocalChain LocalRun.

Ltac suite_step :=
  unfold invoke, method_of, send_call, has_method, settled, connect_to,
    expect_equal, expect_revertedWith,
    mbind, mret, async_bind, async_ret, Js.bind, Js.ret, Js.gets, Js.throw,
    Fixture.env, request, set_signers, set_helloWorld, modify,
    getSigners, getContractFactory, deploy, deployed, call, send, eth_call,
    Solidity.transact, HelloWorld.greetFunction, HelloWorld.setGreet,
    exec_bind, exec_ret, Solidity.bind, Solidity.ret, Solidity.load,
    Solidity.store, Solidity.require;
  cbn -[fresh dom insert lookup decide revertedWith];
  rewrite ?lookup_insert_eq, ?insert_insert_eq.

Ltac suite_run := repeat (progress suite_step).

(** *** What each scenario expects, against any environment *)

Section Expectations.
Context {W : Type} `{Env W} `{Matchers}.









End Expectations.

(** *** The suite of the README on the local chain *)

Section Run.
Context `{Matchers}.
Variables (cs : gmap N HelloWorld.Storage) (a0 a1 : N) (rest : list N).



Variables (addr : N) (log : list Request).

(** Scenario 1 reads the greeting once and passes exactly when it is
    "Hello, World!". *)
Lemma returns_greeting_runs g :
  returns_greeting (running cs a0 a1 rest addr {| HelloWorld.greet := g |} log)
  = (if decide (g = "Hello, World!") then Resolved tt
     else Rejected (AssertionError (VString g) (VString "Hello, World!")),
     running cs a0 a1 rest addr {| HelloWorld.greet := g |}
       (log ++ [called addr a0 "greetFunction" []])).
Proof.
  unfold returns_greeting, running, called. suite_run.
  destruct (decide (g = "Hello, World!")) as [->|Hg].
  - rewrite decide_True by reflexivity. reflexivity.
  - rewrite decide_False by congruence. reflexivity.
Qed.

(** Scenario 2 sets "Hello, Ethereum!", reads it back and passes. *)
Lemma updates_greeting_runs st :
  updates_greeting (running cs a0 a1 rest addr st log)
  = (Resolved tt,
     running cs a0 a1 rest addr {| HelloWorld.greet := "Hello, Ethereum!" |}
       (log ++ [called addr a0 "setGreet" ["Hello, Ethereum!"];
                called addr a0 "greetFunction" []])).
Proof.
  unfold updates_greeting, running, called. suite_run.
  rewrite decide_True by reflexivity. rewrite <- app_assoc. reflexivity.
Qed.

(** Scenario 3 tries to set the empty string; the call is rejected with
    the reason of the [require], which is what [revertedWith] gets to
    judge, and the greeting is what it was. *)
Lemma reverts_on_empty_runs st :
  reverts_on_empty (running cs a0 a1 rest addr st log)
  = (revertedWith
       (Rejected (CallException (Solidity.Error "Greeting cannot be empty")))
       "Greeting cannot be empty",
     running cs a0 a1 rest addr st (log ++ [called addr a0 "setGreet" [""]])).
Proof.
  unfold reverts_on_empty, running, called. suite_run. reflexivity.
Qed.

(** Scenario 4 sets "Hello from addr1!" as the second account, reads it
    back as the first and passes. *)
Lemma anyone_updates_runs st :
  anyone_updates (running cs a0 a1 rest addr st log)
  = (Resolved tt,
     running cs a0 a1 rest addr {| HelloWorld.greet := "Hello from addr1!" |}
       (log ++ [called addr a1 "setGreet" ["Hello from addr1!"];
                called addr a0 "greetFunction" []])).
Proof.
  unfold anyone_updates, running, called. suite_run.
  rewrite decide_True by reflexivity. rewrite <- app_assoc. reflexivity.
Qed.

End Run.

(** *** The shorter suite on the local chain *)

(** Its hook asks for the factory, deploys once and waits. *)
Lemma greet_hook_runs (cs : gmap N HelloWorld.Storage) (a0 : N) (rest : list N) :
  GreetTest.before_hook
    (start {| contracts := cs; accounts := a0 :: rest; compiled := true |})
  = (Resolved tt,
     {| proc :=
          {| world :=
               {| contracts :=
                    <[fresh (dom cs) := {| HelloWorld.greet := "Hello, World!" |}]> cs;
                  accounts := a0 :: rest; compiled := true |};
             issued := [GetContractFactory "HelloWorld"; Deploy;
                        Deployed (HexString.of_N (fresh (dom cs)))];
             stdout := []; stderr := []; exitCode := None |};
        helloWorld := Some {| target := fresh (dom cs); from := a0 |};
        owner := None; addr1 := None |}).
Proof.
  unfold GreetTest.before_hook, start, boot. suite_run. reflexivity.
Qed.



End HelloWorldTestSpec.

(** ** Sequences of transactions *)

Module CallsSpec.
Import Solidity HelloWorld Calls.

(** What one transaction does to the storage. *)
Lemma perform_greetFunction msg st : perform (msg, GreetFunction) st = st.
Proof. reflexivity. Qed.

Lemma perform_setGreet_empty msg st : perform (msg, SetGreet "") st = st.
Proof. reflexivity. Qed.

Lemma perform_setGreet_nonempty msg c s st :
  perform (msg, SetGreet (String c s)) st = {| greet := String c s |}.
Proof.
  unfold perform.
  rewrite HelloWorldSpec.setGreet_nonempty by discriminate. reflexivity.
Qed.

(** The stored greeting follows [last_greeting]. *)
Lemma greet_replay (txs : list (Msg * Call)) (st : Storage) :
  greet (replay txs st) = last_greeting txs (greet st).
Proof.
  revert st. induction txs as [|[m [|[|c s]]] txs IH]; intros st.
  - reflexivity.
  - change (replay ((m, GreetFunction) :: txs) st)
      with (replay txs (perform (m, GreetFunction) st)).
    rewrite perform_greetFunction. apply IH.
  - change (replay ((m, SetGreet "") :: txs) st)
      with (replay txs (perform (m, SetGreet "") st)).
    rewrite perform_setGreet_empty. apply IH.
  - change (replay ((m, SetGreet (String c s)) :: txs) st)
      with (replay txs (perform (m, SetGreet (String c s)) st)).
    rewrite perform_setGreet_nonempty. apply IH.
Qed.

(** The expected greeting is empty only if the one before was. *)
Lemma last_greeting_nonempty txs g :
  g <> "" -> last_greeting txs g <> "".
Proof.
  revert g. induction txs as [|[m [|[|c s]]] txs IH]; intros g Hg; simpl.
  - exact Hg.
  - apply IH, Hg.
  - apply IH, Hg.
  - apply IH. discriminate.
Qed.

(** X1. After any list of transactions, reverted ones included, the
    stored greeting is the argument of the last call of the setter whose
    argument was not empty, and the greeting held before when there was
    no such call; the getter then returns it to any caller. *)
Theorem replay_last_greeting (txs : list (Msg * Call)) (st : Storage) msg :
  greet (replay txs st) = last_greeting txs (greet st) /\
  transact (greetFunction msg) (replay txs st)
  = (Success (last_greeting txs (greet st)), replay txs st).
Proof.
  split; [apply greet_replay|].
  rewrite HelloWorldSpec.greetFunction_returns, greet_replay. reflexivity.
Qed.

(** X2. An instance whose greeting is not empty keeps a non-empty
    greeting through any list of transactions, whoever sends them and
    whether they succeed or revert. *)
Theorem replay_keeps_nonempty (txs : list (Msg * Call)) (st : Storage) :
  greet st <> "" -> greet (replay txs st) <> "".
Proof.
  intros Hst. rewrite greet_replay. apply last_greeting_nonempty, Hst.
Qed.

Lemma replay_keeps_nonempty_witness :
  greet (replay [ ({| sender := 101 |}, SetGreet "Hello, Ethereum!");
                  ({| sender := 101 |}, SetGreet "");
                  ({| sender := 102 |}, GreetFunction) ]
                {| greet := "Hello, World!" |}) <> "".
Proof.
  apply replay_keeps_nonempty. discriminate.
Defined.

End CallsSpec.

(** ** More on the deployment script *)

Module DeployScriptMore.
Import Js Hardhat Process DeployScript.

Ltac run_script :=
  unfold run, script, ReadmeDeployScript.run, ReadmeDeployScript.script,
    ReadmeDeployScript.main, catch, main, mbind, async_bind, bind, request,
    console_log, console_error, set_exitCode, modify, boot; cbn.

Ltac step_env :=
  match goal with
  | E : ?x = _ |- context [?x] => rewrite E; cbn
  end.

Section Script.
Context {W : Type} `{Env W}.

(** X3. Whatever the environment does, the script reports exactly once:
    either one line on standard output and nothing on standard error,
    with status 0, or one error on standard error and nothing on standard
    output, with status 1. *)
Theorem run_reports_once (w : W) :
  (length (stdout (run w)) = 1%nat /\ stderr (run w) = []
   /\ exit_status (run w) = 0%Z) \/
  (stdout (run w) = [] /\ length (stderr (run w)) = 1%nat
   /\ exit_status (run w) = 1%Z).
Proof.
  destruct (DeployScriptSpec.deploys_or_fails w) as [[hello Hd] | [e Hf]].
  - left. apply DeployScriptSpec.run_deploys in Hd
      as (_ & Hout & Herr & Hcode & _).
    unfold exit_status. rewrite Hout, Herr, Hcode. repeat split.
  - right. apply DeployScriptSpec.run_fails in Hf
      as (_ & Hout & Herr & Hcode & _).
    unfold exit_status. rewrite Hout, Herr, Hcode. repeat split.
Qed.

(** X4. The script asks for a deployment only with a factory in hand:
    [Deploy] is among its requests exactly when the client was built and
    the lookup of "HelloWorld" resolved. *)
Theorem deploy_requested_iff (w : W) :
  In Deploy (issued (run w)) <->
  exists w1 HelloWorld w2,
    createPublicClient w = (Resolved tt, w1) /\
    getContractFactory "HelloWorld" w1 = (Resolved HelloWorld, w2).
Proof.
  destruct (createPublicClient w) as [[[]|e1] w1] eqn:E1.
  2:{ run_script. repeat step_env. split.
      - intros [Hin|[]]. discriminate.
      - intros (? & ? & ? & Hc & _). discriminate. }
  destruct (getContractFactory "HelloWorld" w1) as [[f|e2] w2] eqn:E2.
  2:{ run_script. repeat step_env. split.
      - intros [Hin|[Hin|[]]]; discriminate.
      - intros (w1' & f & w2' & Hc & Hl).
        injection Hc as <-. rewrite E2 in Hl. discriminate. }
  split; [intros _; eauto|]. intros _.
  run_script. repeat step_env.
  destruct (deploy f w2) as [[hello|e3] w3] eqn:E3; cbn.
  - destruct (deployed hello w3) as [[[]|e4] w4]; cbn; auto.
  - auto.
Qed.

(** X5. The client that scripts/deploy.ts builds and never uses changes
    nothing of what the script does: when building it succeeds and leaves
    the environment alone, the script prints, reports and exits as the
    script of the README does, and ends in the same environment, with
    one request more at the head of its record. *)
Theorem client_changes_nothing (w : W) :
  createPublicClient w = (Resolved tt, w) ->
  stdout (run w) = stdout (ReadmeDeployScript.run w) /\
  stderr (run w) = stderr (ReadmeDeployScript.run w) /\
  exitCode (run w) = exitCode (ReadmeDeployScript.run w) /\
  world (run w) = world (ReadmeDeployScript.run w) /\
  issued (run w) = CreatePublicClient :: issued (ReadmeDeployScript.run w).
Proof.
  intros E1. run_script. rewrite E1. cbn.
  destruct (getContractFactory "HelloWorld" w) as [[f|e2] w2]; cbn;
    [|repeat split].
  destruct (deploy f w2) as [[hello|e3] w3]; cbn; [|repeat split].
  destruct (deployed hello w3) as [[[]|e4] w4]; cbn; repeat split.
Qed.

End Script.

Lemma client_changes_nothing_witness :
  createPublicClient (LocalChain.node true)
  = (Resolved tt, LocalChain.node true) /\
  stdout (run (LocalChain.node true))
  = stdout (ReadmeDeployScript.run (LocalChain.node true)).
Proof.
  assert (E : createPublicClient (LocalChain.node true)
              = (Resolved tt, LocalChain.node true)) by reflexivity.
  split; [exact E|].
  exact (proj1 (client_changes_nothing (LocalChain.node true) E)).
Defined.

End DeployScriptMore.

(** ** The suite of the README against any environment *)

Module SuiteLogSpec.
Import Js Hardhat Process Mocha Chai Fixture HelloWorldTest Requests SuiteLog.

Section Log.
Context {W : Type} `{Env W} `{Matchers}.

Lemma only_calls_ret {A} (a : A) : only_calls (mret a).
Proof. intros v. exists []. cbn. rewrite app_nil_r. auto. Qed.

Lemma only_calls_throw {A} (e : Error) : only_calls (throw (A:=A) e).
Proof. intros v. exists []. cbn. rewrite app_nil_r. auto. Qed.

Lemma only_calls_gets {A} (f : Vars -> A) : only_calls (gets f).
Proof. intros v. exists []. cbn. rewrite app_nil_r. auto. Qed.

Lemma only_calls_bind {A B} (m : Async Vars A) (k : A -> Async Vars B) :
  only_calls m -> (forall a, only_calls (k a)) -> only_calls (m ≫= k).
Proof.
  intros Hm Hk v. unfold mbind, async_bind, bind.
  destruct (Hm v) as (l1 & E1 & F1).
  destruct (m v) as [[a|e] v'] eqn:Emv; cbn in E1.
  - destruct (Hk a v') as (l2 & E2 & F2).
    exists (l1 ++ l2). rewrite E2, E1, app_assoc, forallb_app, F1, F2. auto.
  - exists l1. cbn. auto.
Qed.

Lemma only_calls_method_of receiver c method :
  only_calls (method_of receiver c method).
Proof.
  unfold method_of. destruct c as [c|]; [|apply only_calls_throw].
  destruct (has_method c method);
    [apply only_calls_ret | apply only_calls_throw].
Qed.

Lemma only_calls_send_call c method args :
  only_calls (send_call c method args).
Proof.
  intros v. unfold send_call, Fixture.env, request.
  destruct (call c method args (world (proc v))) as [o w']. cbn.
  eexists. split; [reflexivity|]. reflexivity.
Qed.

Lemma only_calls_invoke receiver c method args :
  only_calls (invoke receiver c method args).
Proof.
  unfold invoke. apply only_calls_bind.
  - apply only_calls_method_of.
  - intros c'. apply only_calls_send_call.
Qed.

Lemma only_calls_settled {A} (m : Async Vars A) :
  only_calls m -> only_calls (settled m).
Proof.
  intros Hm v. unfold settled. destruct (Hm v) as (l & E & F).
  destruct (m v) as [o v']. exists l. auto.
Qed.

Lemma only_calls_connect_to c s : only_calls (connect_to c s).
Proof.
  destruct c as [c|], s as [s|]; cbn;
    first [apply only_calls_ret | apply only_calls_throw].
Qed.

Lemma only_calls_expect_equal actual expected :
  only_calls (expect_equal actual expected).
Proof.
  unfold expect_equal. case_decide;
    [apply only_calls_ret | apply only_calls_throw].
Qed.

Lemma only_calls_expect_revertedWith promise reason :
  only_calls (expect_revertedWith promise reason).
Proof. intros v. exists []. cbn. rewrite app_nil_r. auto. Qed.

Create HintDb suite_log.

#[local] Hint Resolve only_calls_ret only_calls_throw only_calls_gets
  only_calls_method_of only_calls_send_call only_calls_invoke
  only_calls_settled only_calls_connect_to only_calls_expect_equal
  only_calls_expect_revertedWith : suite_log.

Ltac only_calls :=
  repeat first
    [ apply only_calls_bind; [|intros ?]
    | solve [auto with suite_log] ].

Lemma only_calls_returns_greeting : only_calls returns_greeting.
Proof. unfold returns_greeting. only_calls. Qed.

Lemma only_calls_updates_greeting : only_calls updates_greeting.
Proof. unfold updates_greeting. only_calls. Qed.

Lemma only_calls_reverts_on_empty : only_calls reverts_on_empty.
Proof. unfold reverts_on_empty. only_calls. Qed.

Lemma only_calls_anyone_updates : only_calls anyone_updates.
Proof. unfold anyone_updates. only_calls. Qed.

(** The runner adds nothing of its own. *)
Lemma run_tests_only_calls (ts : list (string * Async Vars unit)) :
  Forall (fun t => only_calls (snd t)) ts ->
  forall v, exists calls,
    issued (proc (snd (run_tests ts v))) = issued (proc v) ++ calls /\
    forallb is_call calls = true.
Proof.
  induction 1 as [|[name body] ts Hbody _ IH]; intros v.
  - exists []. cbn. rewrite app_nil_r. auto.
  - cbn in Hbody |- *. destruct (Hbody v) as (l1 & E1 & F1).
    destruct (body v) as [o v']. cbn in E1.
    destruct (IH v') as (l2 & E2 & F2).
    destruct (run_tests ts v') as [vs v'']. cbn in *.
    exists (l1 ++ l2). rewrite E2, E1, app_assoc, forallb_app, F1, F2. auto.
Qed.

Lemma tests_only_calls :
  Forall (fun t => only_calls (snd t)) (tests suite).
Proof.
  repeat constructor; cbn.
  - apply only_calls_returns_greeting.
  - apply only_calls_updates_greeting.
  - apply only_calls_reverts_on_empty.
  - apply only_calls_anyone_updates.
Qed.

(** The hook goes through its four requests in order and stops at the
    first that is rejected. *)
Lemma before_hook_log (w : W) :
  exists a,
    issued (proc (snd (before_hook (start w)))) `prefix_of` hook_requests a /\
    (forall x, fst (before_hook (start w)) = Resolved x ->
               issued (proc (snd (before_hook (start w)))) = hook_requests a).
Proof.
  unfold before_hook, mbind, async_bind, bind, Fixture.env, request,
    set_signers, set_helloWorld, modify, start, boot, hook_requests. cbn.
  destruct (getSigners w) as [[ss|e1] w1]; cbn.
  2:{ exists "". split; [|discriminate].
      exists [GetContractFactory "HelloWorld"; Deploy; Deployed ""].
      reflexivity. }
  destruct (getContractFactory "HelloWorld" w1) as [[f|e2] w2]; cbn.
  2:{ exists "". split; [|discriminate]. exists [Deploy; Deployed ""].
      reflexivity. }
  destruct (deploy f w2) as [[c|e3] w3]; cbn.
  2:{ exists "". split; [|discriminate]. exists [Deployed ""]. reflexivity. }
  exists (address c).
  destruct (deployed c w3) as [[[]|e4] w4]; cbn; split; auto.
Qed.

Lemma calls_are_not_deployments (calls : list Request) :
  forallb is_call calls = true -> List.filter is_deploy calls = [].
Proof.
  induction calls as [|r calls IH]; [reflexivity|]. cbn.
  destruct r; cbn; try discriminate. exact IH.
Qed.

Lemma at_most_one_deployment a (hooklog calls : list Request) :
  hooklog `prefix_of` hook_requests a ->
  forallb is_call calls = true ->
  (length (List.filter is_deploy (hooklog ++ calls)) <= 1)%nat.
Proof.
  intros [k Hk] Hcalls.
  rewrite List.filter_app, (calls_are_not_deployments calls Hcalls), app_nil_r.
  assert (Hlen : length (List.filter is_deploy (hooklog ++ k)) = 1%nat)
    by (rewrite <- Hk; reflexivity).
  rewrite List.filter_app, length_app in Hlen. lia.
Qed.

(** X6. Against any environment and whatever [revertedWith] does, the
    record of a run of the suite is what the hook requested, an initial
    part of signers, factory, one deployment and its confirmation,
    followed by nothing but calls of contract methods; there are calls
    only if the hook resolved, having put all four of its requests, and a
    deployment is requested at most once. *)
Theorem suite_requests (w : W) :
  exists a hooklog calls,
    issued (proc (snd (Mocha.run suite (start w)))) = hooklog ++ calls /\
    hooklog `prefix_of` hook_requests a /\
    forallb is_call calls = true /\
    (calls <> [] ->
     fst (before_hook (start w)) = Resolved tt /\
     hooklog = hook_requests a) /\
    (length (List.filter is_deploy
               (issued (proc (snd (Mocha.run suite (start w)))))) <= 1)%nat.
Proof.
  destruct (before_hook_log w) as (a & Hpre & Hfull).
  exists a, (issued (proc (snd (before_hook (start w))))).
  unfold Mocha.run. cbn [before suite].
  destruct (before_hook (start w)) as [[[]|e] v'] eqn:Ehook; cbn in Hpre, Hfull.
  - destruct (run_tests_only_calls (tests suite) tests_only_calls v')
      as (calls & Ecalls & Hcalls).
    destruct (run_tests (tests suite) v') as [vs v'']. cbn in Ecalls |- *.
    exists calls. rewrite Ecalls.
    split; [reflexivity|]. split; [exact Hpre|]. split; [exact Hcalls|]. split.
    + intros _. split; [reflexivity|]. apply (Hfull tt). reflexivity.
    + eapply at_most_one_deployment; eassumption.
  - exists []. cbn. rewrite app_nil_r.
    split; [reflexivity|]. split; [exact Hpre|]. split; [reflexivity|]. split.
    + intros Hne. contradiction Hne. reflexivity.
    + rewrite <- (app_nil_r (issued (proc v'))).
      eapply at_most_one_deployment; [eassumption | reflexivity].
Qed.

End Log.
End SuiteLogSpec.


(** ** More on the suites, run on the local chain *)

Module LocalSuiteSpec.
Import Js Hardhat Process Mocha Chai Fixture HelloWorldTest.
Import LocalChain LocalRun HelloWorldTestSpec.

(** X7. On the local chain, scenario 1 passes exactly when the instance
    still holds the greeting the constructor stored, and fails on the
    comparison when it runs after scenario 2 or scenario 4; scenarios 2 and
    4 pass whatever greeting the instance holds; scenario 3 makes its one
    call, which is rejected with "Greeting cannot be empty", ends as
    [revertedWith] decides on that rejection, and leaves the instance and
    everything else but the record of requests as it found them. *)
Theorem scenarios_and_order `{Matchers}
    (cs : gmap N HelloWorld.Storage) (a0 a1 : N) (rest : list N)
    (addr : N) (g : string) (log : list Request) :
  let v := running cs a0 a1 rest addr {| HelloWorld.greet := g |} log in
  (fst (returns_greeting v) = Resolved tt <-> g = "Hello, World!") /\
  fst (updates_greeting v) = Resolved tt /\
  fst (anyone_updates v) = Resolved tt /\
  fst (returns_greeting (snd (updates_greeting v)))
  = Rejected (AssertionError (VString "Hello, Ethereum!")
                             (VString "Hello, World!")) /\
  fst (returns_greeting (snd (anyone_updates v)))
  = Rejected (AssertionError (VString "Hello from addr1!")
                             (VString "Hello, World!")) /\
  reverts_on_empty v
  = (revertedWith
       (Rejected (CallException (Solidity.Error "Greeting cannot be empty")))
       "Greeting cannot be empty",
     running cs a0 a1 rest addr {| HelloWorld.greet := g |}
       (log ++ [called addr a0 "setGreet" [""]])).
Proof.
  intros v. unfold v.
  rewrite updates_greeting_runs, reverts_on_empty_runs, anyone_updates_runs.
  cbn [fst snd]. rewrite !returns_greeting_runs. cbn [fst].
  repeat split; repeat case_decide; intros;
    try discriminate; try congruence; auto.
Qed.

(** X9. The shorter suite cannot pass on this contract: on any chain
    with an account and the project built its hook deploys an instance,
    and its one scenario throws in the script, before anything is
    requested, because the handle offers no function [greet]; the
    instance is left with the greeting of the constructor. *)
Theorem greet_suite_fails
    (cs : gmap N HelloWorld.Storage) (a0 : N) (rest : list N) :
  let r := Mocha.run GreetTest.suite
             (start {| contracts := cs; accounts := a0 :: rest;
                       compiled := true |}) in
  fst r = inr [ ("Should return the correct greeting",
                 Failed (TypeError "helloWorld.greet is not a function")) ] /\
  contracts (world (proc (snd r)))
  = <[fresh (dom cs) := {| HelloWorld.greet := "Hello, World!" |}]> cs /\
  issued (proc (snd r))
  = [ GetContractFactory "HelloWorld"; Deploy;
      Deployed (HexString.of_N (fresh (dom cs))) ].
Proof.
  unfold Mocha.run, GreetTest.suite, before, tests, run_tests.
  rewrite greet_hook_runs.
  unfold GreetTest.returns_greeting. suite_run. repeat split.
Qed.

End LocalSuiteSpec.
